(** * YSB MT5 worker: the [POST /mt5/login] handler of [worker/main.py]

    A shallow embedding of the handler [mt5_login] and of the few Python
    notions it relies on ([os.getenv], [Header(default="")], [int()],
    [try/except Exception], [try/finally], [namedtuple._asdict()]),
    followed by the properties of the handler.

    The MetaTrader5 package is an external collaborator: the handler is
    parametrised by what the import and each call of the binding do, and
    records every interaction with it in a trace. It is parametrised in
    the same way by the built-in [int]. *)

From Stdlib Require Import ZArith Ascii String List.
From stdpp Require Import base option list gmap strings.

Local Open Scope string_scope.
Local Open Scope list_scope.
Local Open Scope Z_scope.

(** ** Python values *)

(** Scalars found in an account record ([int], [float] as mantissa and
    binary exponent, [str], [bool]). *)
Inductive pyval :=
| PInt (z : Z)
| PFloat (mantissa exponent : Z)
| PStr (s : string)
| PBool (b : bool).

(** Values stored under the keys of the handler's result dict. *)
Inductive pyobj :=
| OBool (b : bool)
| OStr (s : string)
| ODict (d : gmap string pyval).

(** A Python exception raised by foreign code (the import machinery or the
    binding): its class name, whether that class derives from [Exception]
    (it always derives from [BaseException]), and [str(e)]. *)
Record pyerr := PyErr {
  err_class : string;
  err_is_Exception : bool;
  err_str : string
}.

(** What propagates out of the handler. *)
Inductive exn :=
| HTTPException (status_code : Z) (detail : string)
| ValueError (literal : string)          (* int(literal) *)
| Foreign (e : pyerr).

Inductive outcome (E A : Type) :=
| Returns (a : A)
| Raises (e : E).
Arguments Returns {E A} a.
Arguments Raises {E A} e.

(** ** The binding, as the handler uses it *)

(** [info] of [mt5.account_info()]: a named tuple, here the pairs of
    [zip(info._fields, info)]. *)
Definition AccountInfo := list (string * pyval).

Module mt5.
(** What each call of the binding does: it returns a value or raises. *)
Record binding := {
  initialize : outcome pyerr bool;
  login : Z → string → string → outcome pyerr bool;
  account_info : outcome pyerr (option AccountInfo);
  shutdown : outcome pyerr unit
}.
End mt5.

(** Interactions with the import machinery and the binding, in order. *)
Inductive event :=
| ev_import
| ev_initialize
| ev_login (login : Z) (password server : string)
| ev_account_info
| ev_shutdown.

(** ** Effects: a trace of events and exceptions *)

Definition M (A : Type) : Type := list event → outcome exn A * list event.

Definition ret {A} (a : A) : M A := λ tr, (Returns a, tr).

Definition raise {A} (e : exn) : M A := λ tr, (Raises e, tr).

Definition bind {A B} (k : A → M B) (m : M A) : M B := λ tr,
  match m tr with
  | (Returns a, tr') => k a tr'
  | (Raises e, tr') => (Raises e, tr')
  end.

(** [x ← m; k] is stdpp's notation for [bind (λ x, k) m]. *)
Global Instance M_ret : MRet M := @ret.
Global Instance M_bind : MBind M := @bind.

(** A call into foreign code: logged, then it returns or raises. *)
Definition call {A} (ev : event) (o : outcome pyerr A) : M A := λ tr,
  match o with
  | Returns a => (Returns a, tr ++ [ev])
  | Raises e => (Raises (Foreign e), tr ++ [ev])
  end.

(** The body of a [try: import ...]: logged, its outcome handed to the
    [except] clause. *)
Definition attempt {A} (ev : event) (o : outcome pyerr A) : M (outcome pyerr A) :=
  λ tr, (Returns o, tr ++ [ev]).

(** [try: body finally: fin]: [fin] runs whether [body] returned or
    raised; when [fin] returns, the outcome of [body] stands, and when it
    raises, its exception replaces that outcome. *)
Definition try_finally {A} (body : M A) (fin : M unit) : M A := λ tr,
  let '(r, tr1) := body tr in
  match fin tr1 with
  | (Returns _, tr2) => (r, tr2)
  | (Raises e, tr2) => (Raises e, tr2)
  end.

(** ** Python built-ins *)

(** [os.getenv(key, default)] over [os.environ]. *)
Definition os_getenv (environ : gmap string string) (key dflt : string) : string :=
  default dflt (environ !! key).

(** [Header(default=d)]: the value of the header, [d] when it is absent. *)
Definition Header (dflt : string) (supplied : option string) : string :=
  default dflt supplied.

(** [info._asdict()], that is [dict(zip(info._fields, info))]: the pairs
    are inserted from left to right. *)
Definition _asdict (info : AccountInfo) : gmap string pyval :=
  foldl (λ d kv, <[kv.1 := kv.2]> d) ∅ info.

(** Truth value of [info]: [None] is false, and a tuple is true when it is
    not empty. *)
Definition truthy (info : option AccountInfo) : bool :=
  match info with
  | None => false
  | Some [] => false
  | Some (_ :: _) => true
  end.

(** ** The worker *)

Record LoginReq := {
  server : string;
  login : string;
  password : string
}.

Section worker.
(** [os.environ] at process start. *)
Variable environ : gmap string string.

(** The built-in [int] on a [str]: the integer it returns, [None] when it
    raises [ValueError]. Which strings it accepts (blanks, digits of other
    scripts, a bound on the length) is the interpreter's business and
    varies with its version: the handler is parametrised by it. *)
Variable int_of_str : string → option Z.

(** What [import MetaTrader5] does. *)
Variable import_MetaTrader5 : outcome pyerr mt5.binding.

Definition int (s : string) : M Z :=
  match int_of_str s with
  | Some n => ret n
  | None => raise (ValueError s)
  end.

Definition API_KEY : string := os_getenv environ "MT5_WORKER_API_KEY" "change-me".

Definition mt5_login (req : LoginReq) (x_api_key : string) : M (gmap string pyobj) :=
  if negb (String.eqb x_api_key API_KEY) then
    raise (HTTPException 401 "invalid api key")
  else
    imported ← attempt ev_import import_MetaTrader5;
    match imported with
    | Raises e =>
        if err_is_Exception e then
          ret {[ "ok" := OBool false;
                 "message" := OStr ("MetaTrader5 not available: " +:+ err_str e) ]}
        else raise (Foreign e)
    | Returns mt5 =>
        initialized ← call ev_initialize (mt5.initialize mt5);
        if negb initialized then
          ret {[ "ok" := OBool false; "message" := OStr "mt5.initialize failed" ]}
        else
          try_finally
            (n ← int (login req);
             ok ← call (ev_login n (password req) (server req))
                       (mt5.login mt5 n (password req) (server req));
             if negb ok then
               ret {[ "ok" := OBool false; "message" := OStr "mt5.login failed" ]}
             else
               info ← call ev_account_info (mt5.account_info mt5);
               let account_info :=
                 if truthy info then _asdict (default [] info) else ∅ in
               ret {[ "ok" := OBool true; "account_info" := ODict account_info ]})
            (call ev_shutdown (mt5.shutdown mt5))
    end.

(** The route: FastAPI binds the [x-api-key] header (or its default) and
    the parsed body, and runs the handler once. *)
Definition post_mt5_login (x_api_key_header : option string) (req : LoginReq)
  : outcome exn (gmap string pyobj) * list event :=
  mt5_login req (Header "" x_api_key_header) [].
End worker.

(** ** The framework around the handler *)

(** What FastAPI sends for an outcome of the handler: a returned dict is
    the JSON body of a 200; an [HTTPException] becomes its status code with
    the body [{"detail": detail}]; any other [Exception] is answered by the
    server's 500 page. An exception outside [Exception] is not answered by
    the framework. *)
Inductive http_response :=
| JSONResponse (status_code : Z) (content : gmap string pyobj)
| PlainTextResponse (status_code : Z) (content : string).

Definition respond (r : outcome exn (gmap string pyobj)) : option http_response :=
  match r with
  | Returns body => Some (JSONResponse 200 body)
  | Raises (HTTPException status detail) =>
      Some (JSONResponse status {[ "detail" := OStr detail ]})
  | Raises (ValueError _) => Some (PlainTextResponse 500 "Internal Server Error")
  | Raises (Foreign e) =>
      if err_is_Exception e then Some (PlainTextResponse 500 "Internal Server Error")
      else None
  end.

(** ** Observations on a trace *)

Definition is_shutdown (ev : event) : bool :=
  match ev with
  | ev_shutdown => true
  | _ => false
  end.

(** How many times [mt5.shutdown()] was called. *)
Definition shutdown_calls (tr : list event) : nat :=
  length (List.filter is_shutdown tr).

(** ** Sample configurations *)

Module Demo.
Definition environ : gmap string string := {[ "MT5_WORKER_API_KEY" := "s3cret" ]}.

Definition req : LoginReq :=
  {| server := "Demo"; login := "12345"; password := "pw" |}.

Definition req_abc : LoginReq :=
  {| server := "Demo"; login := "abc"; password := "pw" |}.

Definition info : AccountInfo :=
  [("balance", PInt 1000); ("currency", PStr "USD")].

(** A conversion for the sample requests: ASCII decimal literals as
    [int()] reads them, that is blanks around, an optional sign, digits,
    single underscores between two digits. Every other string is refused
    here; the interpreter also takes blanks and digits outside ASCII, and
    recent versions refuse literals of more than 4300 digits. *)
Definition is_space (c : ascii) : bool :=
  let n := Z.of_nat (nat_of_ascii c) in
  ((9 <=? n) && (n <=? 13)) || (n =? 32).

Definition digit_of (c : ascii) : option Z :=
  let n := Z.of_nat (nat_of_ascii c) in
  if (48 <=? n) && (n <=? 57) then Some (n - 48) else None.

Fixpoint lstrip (s : string) : string :=
  match s with
  | String c s' => if is_space c then lstrip s' else s
  | EmptyString => EmptyString
  end.

Definition strip (s : string) : string :=
  String.rev (lstrip (String.rev (lstrip s))).

Fixpoint more_digits (acc : Z) (s : string) : option Z :=
  match s with
  | EmptyString => Some acc
  | String "_" (String c s') =>
      match digit_of c with
      | Some d => more_digits (10 * acc + d) s'
      | None => None
      end
  | String c s' =>
      match digit_of c with
      | Some d => more_digits (10 * acc + d) s'
      | None => None
      end
  end.

Definition digits (s : string) : option Z :=
  match s with
  | String c s' =>
      match digit_of c with
      | Some d => more_digits d s'
      | None => None
      end
  | EmptyString => None
  end.

Definition int_of_str (s : string) : option Z :=
  match strip s with
  | String "+" t => digits t
  | String "-" t => Z.opp <$> digits t
  | t => digits t
  end.

(** A binding whose calls all return. *)
Definition binding (init ok : bool) (i : option AccountInfo) : mt5.binding :=
  {| mt5.initialize := Returns init;
     mt5.login := λ _ _ _, Returns ok;
     mt5.account_info := Returns i;
     mt5.shutdown := Returns tt |}.

(** A binding whose [account_info()] raises. *)
Definition broken_info : mt5.binding :=
  {| mt5.initialize := Returns true;
     mt5.login := λ _ _ _, Returns true;
     mt5.account_info := Raises (PyErr "RuntimeError" true "terminal lost");
     mt5.shutdown := Returns tt |}.

Definition ModuleNotFoundError : pyerr :=
  PyErr "ModuleNotFoundError" true "No module named 'MetaTrader5'".

(** A module that calls [sys.exit(1)] while it is imported. *)
Definition SystemExit : pyerr := PyErr "SystemExit" false "1".
End Demo.

(** ** Faulty bindings and the order of a request *)

Module Faulty.
Definition TerminalError : pyerr := PyErr "RuntimeError" true "terminal lost".


(** A binding whose [initialize()] raises. *)
Definition initialize_raises : mt5.binding :=
  {| mt5.initialize := Raises TerminalError;
     mt5.login := λ _ _ _, Returns true;
     mt5.account_info := Returns None;
     mt5.shutdown := Returns tt |}.


(** A binding whose [shutdown()] raises, the other calls returning. *)
Definition shutdown_raises (ok : bool) (i : option AccountInfo) : mt5.binding :=
  {| mt5.initialize := Returns true;
     mt5.login := λ _ _ _, Returns ok;
     mt5.account_info := Returns i;
     mt5.shutdown := Raises TerminalError |}.
End Faulty.

(** The interactions the handler goes through for a request whose login
    id is [n], in the order of its statements, the release apart. *)
Definition protocol (req : LoginReq) (n : Z) : list event :=
  [ev_import; ev_initialize; ev_login n (password req) (server req); ev_account_info].

(** * Properties *)

(** ** Running the handler symbolically *)

Ltac exec :=
  cbv beta iota zeta delta
    [post_mt5_login mt5_login mbind M_bind bind attempt call try_finally int ret raise
     negb fst snd];
  cbn [app].

(** Unfold the handler, then alternate between reducing it and rewriting
    with what is known of the key, the import and the binding. *)
Ltac run :=
  exec;
  repeat (progress (repeat match goal with
                           | H : _ = _ |- _ => rewrite H
                           end; exec)).

(** Case analysis on every outcome the handler consults, in order. *)
Ltac paths :=
  exec;
  repeat (match goal with
          | |- context [match ?x with _ => _ end] =>
              lazymatch x with
              | context [match _ with _ => _ end] => fail
              | _ => destruct x eqn:?
              end
          end; exec).

Lemma key_accepted environ hdr :
  Header "" hdr = API_KEY environ →
  String.eqb (Header "" hdr) (API_KEY environ) = true.
Proof. intros ->. apply String.eqb_refl. Qed.

Lemma key_refused environ hdr :
  Header "" hdr ≠ API_KEY environ →
  String.eqb (Header "" hdr) (API_KEY environ) = false.
Proof. intros Hne. by apply String.eqb_neq. Qed.

(** Two outcomes whose dicts disagree on one key are different. *)
Lemma returns_neq_at (k : string) (r : outcome exn (gmap string pyobj))
    (d : gmap string pyobj) :
  (∀ d', r = Returns d' → d' !! k ≠ d !! k) → r ≠ Returns d.
Proof. intros Hk ->. by apply (Hk d). Qed.

(** ** The API key gate *)

(** C2. A request whose [x-api-key] value (the empty string when the
    header is missing) differs from the configured key is rejected: the
    handler raises [HTTPException(401, "invalid api key")] and returns no
    dict, the response is a 401 whose body carries that detail and no
    [account_info], and nothing was imported or called. *)
Theorem invalid_api_key_rejected environ int_of_str imp hdr req :
  Header "" hdr ≠ API_KEY environ →
  post_mt5_login environ int_of_str imp hdr req =
    (Raises (HTTPException 401 "invalid api key"), []) ∧
  ∃ content,
    respond (post_mt5_login environ int_of_str imp hdr req).1 = Some (JSONResponse 401 content) ∧
    content !! "detail" = Some (OStr "invalid api key") ∧
    content !! "account_info" = None.
Proof.
  intros Hkey%key_refused.
  assert (post_mt5_login environ int_of_str imp hdr req =
            (Raises (HTTPException 401 "invalid api key"), [])) as -> by (by run).
  split; [done|]. eexists. split; [reflexivity|]. by split.
Qed.

Lemma invalid_api_key_rejected_witness :
  post_mt5_login Demo.environ Demo.int_of_str (Returns (Demo.binding true true (Some Demo.info)))
    None Demo.req =
    (Raises (HTTPException 401 "invalid api key"), []) ∧
  ∃ content,
    respond (post_mt5_login Demo.environ Demo.int_of_str
               (Returns (Demo.binding true true (Some Demo.info))) None Demo.req).1 =
      Some (JSONResponse 401 content) ∧
    content !! "detail" = Some (OStr "invalid api key") ∧
    content !! "account_info" = None.
Proof. apply invalid_api_key_rejected. vm_compute. discriminate. Defined.

(** C9. When [MT5_WORKER_API_KEY] is set to the empty string, a request
    without an [x-api-key] header is not rejected: the handler goes on to
    the import and never raises an [HTTPException]. *)
Theorem empty_key_accepts_missing_header environ int_of_str imp req :
  environ !! "MT5_WORKER_API_KEY" = Some "" →
  Header "" None = API_KEY environ ∧
  (∃ tr, (post_mt5_login environ int_of_str imp None req).2 = ev_import :: tr) ∧
  ∀ status detail,
    (post_mt5_login environ int_of_str imp None req).1 ≠ Raises (HTTPException status detail).
Proof.
  intros Henv.
  assert (Header "" None = API_KEY environ) as Hkey.
  { unfold API_KEY, os_getenv. by rewrite Henv. }
  split; [done|]. apply key_accepted in Hkey. revert Hkey.
  paths; intros Hkey; try discriminate Hkey;
    (split; [by eexists | intros ??; congruence]).
Qed.

Lemma empty_key_accepts_missing_header_witness :
  Header "" None = API_KEY {[ "MT5_WORKER_API_KEY" := "" ]} ∧
  (∃ tr, (post_mt5_login {[ "MT5_WORKER_API_KEY" := "" ]} Demo.int_of_str
            (Raises Demo.ModuleNotFoundError) None Demo.req).2 = ev_import :: tr) ∧
  ∀ status detail,
    (post_mt5_login {[ "MT5_WORKER_API_KEY" := "" ]} Demo.int_of_str
       (Raises Demo.ModuleNotFoundError) None Demo.req).1
    ≠ Raises (HTTPException status detail).
Proof. apply empty_key_accepts_missing_header. reflexivity. Defined.

(** ** Failure to initialise *)

(** C3, as amended: with a correct key and a binding that loads, when
    [initialize()] returns false the handler returns exactly
    [{"ok": False, "message": "mt5.initialize failed"}], and the only
    interactions are the import and [initialize()]: neither [login()] nor
    [account_info()] (nor [shutdown()]) is called. *)
Theorem initialize_failed environ int_of_str imp hdr req m :
  Header "" hdr = API_KEY environ →
  imp = Returns m →
  mt5.initialize m = Returns false →
  post_mt5_login environ int_of_str imp hdr req =
    (Returns {[ "ok" := OBool false; "message" := OStr "mt5.initialize failed" ]},
     [ev_import; ev_initialize]).
Proof. intros Hkey%key_accepted Himp Hinit. by run. Qed.

Lemma initialize_failed_witness :
  post_mt5_login Demo.environ Demo.int_of_str (Returns (Demo.binding false true None))
    (Some "s3cret") Demo.req =
    (Returns {[ "ok" := OBool false; "message" := OStr "mt5.initialize failed" ]},
     [ev_import; ev_initialize]).
Proof.
  apply (initialize_failed _ _ _ _ _ (Demo.binding false true None)); reflexivity.
Defined.

(** C3, as stated, fails: the message is not the literal
    ["initialize failed"]. *)
Lemma initialize_failed_message_differs :
  Header "" (Some "s3cret") = API_KEY Demo.environ ∧
  mt5.initialize (Demo.binding false true None) = Returns false ∧
  (post_mt5_login Demo.environ Demo.int_of_str (Returns (Demo.binding false true None))
     (Some "s3cret") Demo.req).1
  ≠ Returns {[ "ok" := OBool false; "message" := OStr "initialize failed" ]}.
Proof.
  split; [reflexivity|]. split; [reflexivity|].
  apply (returns_neq_at "message"). intros d' [= <-]. vm_compute. discriminate.
Qed.

(** ** Failure to log in *)




(** ** The account record *)




(** C5, as amended: with a correct key, when [login()] succeeds,
    [account_info()] returns no record and [shutdown()] returns, the
    handler returns [{"ok": True, "account_info": {}}]. *)
Theorem no_account_record environ int_of_str imp hdr req m n :
  Header "" hdr = API_KEY environ →
  imp = Returns m →
  mt5.initialize m = Returns true →
  int_of_str (login req) = Some n →
  mt5.login m n (password req) (server req) = Returns true →
  mt5.account_info m = Returns None →
  mt5.shutdown m = Returns tt →
  post_mt5_login environ int_of_str imp hdr req =
    (Returns {[ "ok" := OBool true; "account_info" := ODict ∅ ]},
     [ev_import; ev_initialize; ev_login n (password req) (server req);
      ev_account_info; ev_shutdown]).
Proof. intros Hkey%key_accepted Himp Hinit Hint Hlogin Hinfo Hshut. by run. Qed.

Lemma no_account_record_witness :
  post_mt5_login Demo.environ Demo.int_of_str (Returns (Demo.binding true true None))
    (Some "s3cret") Demo.req =
    (Returns {[ "ok" := OBool true; "account_info" := ODict ∅ ]},
     [ev_import; ev_initialize; ev_login 12345 "pw" "Demo";
      ev_account_info; ev_shutdown]).
Proof.
  apply (no_account_record _ _ _ _ Demo.req (Demo.binding true true None) 12345);
    reflexivity.
Defined.

(** C5, as stated, fails: [login()] succeeds and [account_info()] returns
    no record, yet [shutdown()] raises in the [finally] clause and its
    exception leaves the handler in place of the dict. *)
Lemma no_account_record_counterexample :
  Header "" (Some "s3cret") = API_KEY Demo.environ ∧
  mt5.login (Faulty.shutdown_raises true None) 12345 "pw" "Demo" = Returns true ∧
  mt5.account_info (Faulty.shutdown_raises true None) = Returns None ∧
  post_mt5_login Demo.environ Demo.int_of_str
    (Returns (Faulty.shutdown_raises true None)) (Some "s3cret") Demo.req =
    (Raises (Foreign Faulty.TerminalError),
     [ev_import; ev_initialize; ev_login 12345 "pw" "Demo";
      ev_account_info; ev_shutdown]) ∧
  (post_mt5_login Demo.environ Demo.int_of_str
     (Returns (Faulty.shutdown_raises true None)) (Some "s3cret") Demo.req).1
  ≠ Returns {[ "ok" := OBool true; "account_info" := ODict ∅ ]}.
Proof. repeat (split; [reflexivity|]). discriminate. Qed.




(** The scenario of a demo account with a balance and a currency. *)
Example demo_account_scenario :
  post_mt5_login Demo.environ Demo.int_of_str (Returns (Demo.binding true true (Some Demo.info)))
    (Some "s3cret") Demo.req =
    (Returns {[ "ok" := OBool true;
                "account_info" :=
                  ODict {[ "balance" := PInt 1000; "currency" := PStr "USD" ]} ]},
     [ev_import; ev_initialize; ev_login 12345 "pw" "Demo";
      ev_account_info; ev_shutdown]).
Proof. vm_compute. reflexivity. Qed.

(** ** The release of the terminal session *)

(** C1. For a request that passes the key check: when the binding loads
    and [initialize()] returns true, [shutdown()] is the last interaction
    before the handler is left, whatever [int()], [login()] and
    [account_info()] do (return or raise), and it is called once, after
    [initialize()]; when the import fails, or when [initialize()] returns
    false, [shutdown()] is not called at all. *)
Theorem shutdown_after_initialize environ int_of_str imp hdr req :
  Header "" hdr = API_KEY environ →
  (∀ m, imp = Returns m → mt5.initialize m = Returns true →
     ∃ pre, (post_mt5_login environ int_of_str imp hdr req).2 = pre ++ [ev_shutdown] ∧
            ev_initialize ∈ pre ∧ shutdown_calls pre = 0%nat) ∧
  (∀ e, imp = Raises e →
     shutdown_calls (post_mt5_login environ int_of_str imp hdr req).2 = 0%nat) ∧
  (∀ m, imp = Returns m → mt5.initialize m = Returns false →
     shutdown_calls (post_mt5_login environ int_of_str imp hdr req).2 = 0%nat).
Proof.
  intros Hkey%key_accepted. split; [|split].
  - intros m -> Hinit. run. paths;
      first [eexists [_; _; _; _]; split; [reflexivity|]
            |eexists [_; _; _]; split; [reflexivity|]
            |eexists [_; _]; split; [reflexivity|]];
      (split; [set_solver|reflexivity]).
  - intros e ->. run. by destruct (err_is_Exception e).
  - intros m -> Hinit. by run.
Qed.

Lemma shutdown_after_initialize_witness :
  (∃ pre, (post_mt5_login Demo.environ Demo.int_of_str (Returns Demo.broken_info)
             (Some "s3cret") Demo.req).2 = pre ++ [ev_shutdown] ∧
          ev_initialize ∈ pre ∧ shutdown_calls pre = 0%nat) ∧
  shutdown_calls (post_mt5_login Demo.environ Demo.int_of_str (Raises Demo.ModuleNotFoundError)
                    (Some "s3cret") Demo.req).2 = 0%nat ∧
  shutdown_calls (post_mt5_login Demo.environ Demo.int_of_str (Returns (Demo.binding false true None))
                    (Some "s3cret") Demo.req).2 = 0%nat.
Proof.
  split; [|split].
  - exact (proj1 (shutdown_after_initialize Demo.environ Demo.int_of_str
                    (Returns Demo.broken_info)
                    (Some "s3cret") Demo.req eq_refl)
             Demo.broken_info eq_refl eq_refl).
  - exact (proj1 (proj2 (shutdown_after_initialize Demo.environ Demo.int_of_str
                           (Raises Demo.ModuleNotFoundError)
                           (Some "s3cret") Demo.req eq_refl))
             Demo.ModuleNotFoundError eq_refl).
  - exact (proj2 (proj2 (shutdown_after_initialize Demo.environ Demo.int_of_str
                           (Returns (Demo.binding false true None))
                           (Some "s3cret") Demo.req eq_refl))
             (Demo.binding false true None) eq_refl eq_refl).
Defined.




(** ** An unavailable binding *)

(** C8, as amended: with a correct key, when [import MetaTrader5] raises
    an exception [e] whose class derives from [Exception], the handler
    returns [{"ok": False, "message": "MetaTrader5 not available: " + str(e)}],
    answered as a 200, after no other interaction than the import. *)
Theorem binding_not_available environ int_of_str imp hdr req e :
  Header "" hdr = API_KEY environ →
  imp = Raises e →
  err_is_Exception e = true →
  post_mt5_login environ int_of_str imp hdr req =
    (Returns {[ "ok" := OBool false;
                "message" := OStr ("MetaTrader5 not available: " +:+ err_str e) ]},
     [ev_import]) ∧
  respond (post_mt5_login environ int_of_str imp hdr req).1 =
    Some (JSONResponse 200
            {[ "ok" := OBool false;
               "message" := OStr ("MetaTrader5 not available: " +:+ err_str e) ]}).
Proof.
  intros Hkey%key_accepted Himp Hexc.
  assert (post_mt5_login environ int_of_str imp hdr req =
    (Returns {[ "ok" := OBool false;
                "message" := OStr ("MetaTrader5 not available: " +:+ err_str e) ]},
     [ev_import])) as -> by (by run).
  done.
Qed.

Lemma binding_not_available_witness :
  post_mt5_login Demo.environ Demo.int_of_str (Raises Demo.ModuleNotFoundError)
    (Some "s3cret") Demo.req =
    (Returns {[ "ok" := OBool false;
                "message" :=
                  OStr "MetaTrader5 not available: No module named 'MetaTrader5'" ]},
     [ev_import]) ∧
  respond (post_mt5_login Demo.environ Demo.int_of_str (Raises Demo.ModuleNotFoundError)
             (Some "s3cret") Demo.req).1 =
    Some (JSONResponse 200
            {[ "ok" := OBool false;
               "message" :=
                 OStr "MetaTrader5 not available: No module named 'MetaTrader5'" ]}).
Proof.
  apply (binding_not_available Demo.environ Demo.int_of_str
           (Raises Demo.ModuleNotFoundError)
           (Some "s3cret") Demo.req Demo.ModuleNotFoundError); reflexivity.
Defined.

(** C8, as stated, fails: an import that ends in an exception outside
    [Exception] (here a [SystemExit]) is not caught; no dict is returned
    and the exception leaves the handler. *)
Lemma import_failure_not_caught :
  Header "" (Some "s3cret") = API_KEY Demo.environ ∧
  post_mt5_login Demo.environ Demo.int_of_str (Raises Demo.SystemExit) (Some "s3cret") Demo.req =
    (Raises (Foreign Demo.SystemExit), [ev_import]) ∧
  ∀ body,
    (post_mt5_login Demo.environ Demo.int_of_str (Raises Demo.SystemExit) (Some "s3cret") Demo.req).1
    ≠ Returns body.
Proof. split; [reflexivity|]. split; [reflexivity|]. intros body. discriminate. Qed.

(** ** The shape of the returned dict *)

(** C10. Every dict the handler returns has a boolean under ["ok"]; when
    it is true the dict has ["account_info"] and no ["message"], and when
    it is false the dict has ["message"] and no ["account_info"]. *)
Theorem body_shape environ int_of_str imp hdr req body :
  (post_mt5_login environ int_of_str imp hdr req).1 = Returns body →
  ∃ b : bool,
    body !! "ok" = Some (OBool b) ∧
    if b then is_Some (body !! "account_info") ∧ body !! "message" = None
    else is_Some (body !! "message") ∧ body !! "account_info" = None.
Proof.
  paths; intros [= <-]; (exists true + exists false);
    (split; [|split]); by simplify_map_eq.
Qed.

Lemma body_shape_witness :
  ∃ b : bool,
    ({[ "ok" := OBool false; "message" := OStr "mt5.login failed" ]}
       : gmap string pyobj) !! "ok" = Some (OBool b) ∧
    if b
    then is_Some (({[ "ok" := OBool false; "message" := OStr "mt5.login failed" ]}
                     : gmap string pyobj) !! "account_info") ∧
         ({[ "ok" := OBool false; "message" := OStr "mt5.login failed" ]}
            : gmap string pyobj) !! "message" = None
    else is_Some (({[ "ok" := OBool false; "message" := OStr "mt5.login failed" ]}
                     : gmap string pyobj) !! "message") ∧
         ({[ "ok" := OBool false; "message" := OStr "mt5.login failed" ]}
            : gmap string pyobj) !! "account_info" = None.
Proof.
  apply (body_shape Demo.environ Demo.int_of_str
           (Returns (Demo.binding true false None))
           (Some "s3cret") Demo.req). reflexivity.
Defined.

(** * Further properties of the handler *)

(** A request whose key is accepted is never answered by an
    [HTTPException]. *)
Lemma accepted_not_rejected environ int_of_str imp hdr req status detail :
  Header "" hdr = API_KEY environ →
  (post_mt5_login environ int_of_str imp hdr req).1 ≠ Raises (HTTPException status detail).
Proof. intros Hkey%key_accepted. revert Hkey. paths; congruence. Qed.

(** X1. When [MT5_WORKER_API_KEY] is not set, the key is the placeholder
    ["change-me"]: the requests that get past the gate are exactly those
    that carry [x-api-key: change-me]; every other one, a request without
    the header included, is rejected with the 401. *)
Theorem placeholder_key_when_unset environ int_of_str imp hdr req :
  environ !! "MT5_WORKER_API_KEY" = None →
  (post_mt5_login environ int_of_str imp hdr req).1 = Raises (HTTPException 401 "invalid api key")
  ↔ hdr ≠ Some "change-me".
Proof.
  intros Henv.
  assert (API_KEY environ = "change-me") as Hdflt.
  { unfold API_KEY, os_getenv. by rewrite Henv. }
  split.
  - intros Hrej ->. revert Hrej. apply accepted_not_rejected. by rewrite Hdflt.
  - intros Hne.
    assert (Header "" hdr ≠ API_KEY environ) as Hkey%key_refused.
    { rewrite Hdflt. destruct hdr as [h|]; simpl; congruence. }
    by run.
Qed.

Lemma placeholder_key_when_unset_witness :
  (post_mt5_login ∅ Demo.int_of_str (Raises Demo.ModuleNotFoundError) (Some "s3cret") Demo.req).1 =
    Raises (HTTPException 401 "invalid api key")
  ↔ Some "s3cret" ≠ Some "change-me".
Proof. apply placeholder_key_when_unset. reflexivity. Defined.

(** X2. The handler raises an [HTTPException] exactly when the
    [x-api-key] value (empty when the header is missing) differs from the
    configured key; no later step rejects a request. *)
Theorem rejected_iff_key_differs environ int_of_str imp hdr req :
  (∃ status detail,
     (post_mt5_login environ int_of_str imp hdr req).1 = Raises (HTTPException status detail))
  ↔ Header "" hdr ≠ API_KEY environ.
Proof.
  split.
  - intros (status & detail & Hrej) Hkey. revert Hrej.
    by apply accepted_not_rejected.
  - intros Hkey%key_refused. exists 401, "invalid api key". by run.
Qed.

(** ** Exceptions of the import and of the binding *)

(** X3. When [initialize()] raises, its exception leaves the handler as
    it is; the call sits before the [try], so [shutdown()] is not called,
    and neither are [login()] and [account_info()]. *)
Theorem initialize_raises_unreleased environ int_of_str imp hdr req m e :
  Header "" hdr = API_KEY environ →
  imp = Returns m →
  mt5.initialize m = Raises e →
  post_mt5_login environ int_of_str imp hdr req =
    (Raises (Foreign e), [ev_import; ev_initialize]).
Proof. intros Hkey%key_accepted Himp Hinit. by run. Qed.

Lemma initialize_raises_unreleased_witness :
  post_mt5_login Demo.environ Demo.int_of_str (Returns Faulty.initialize_raises)
    (Some "s3cret") Demo.req =
    (Raises (Foreign Faulty.TerminalError), [ev_import; ev_initialize]).
Proof.
  apply (initialize_raises_unreleased _ _ _ _ Demo.req Faulty.initialize_raises);
    reflexivity.
Defined.





(** X6. An import that ends in an exception outside [Exception] is not
    reported as an unavailable binding: the exception leaves the handler,
    and nothing but the import was attempted. *)
Theorem import_exception_outside_Exception environ int_of_str imp hdr req e :
  Header "" hdr = API_KEY environ →
  imp = Raises e →
  err_is_Exception e = false →
  post_mt5_login environ int_of_str imp hdr req = (Raises (Foreign e), [ev_import]).
Proof. intros Hkey%key_accepted Himp Hexc. by run. Qed.

Lemma import_exception_outside_Exception_witness :
  post_mt5_login Demo.environ Demo.int_of_str (Raises Demo.SystemExit)
    (Some "s3cret") Demo.req =
    (Raises (Foreign Demo.SystemExit), [ev_import]).
Proof.
  apply (import_exception_outside_Exception _ _ _ _ Demo.req Demo.SystemExit);
    reflexivity.
Defined.

(** X14. When [shutdown()] raises in the [finally] clause, its exception
    is what leaves the handler, whatever the body of the [try] did: a
    dict that was about to be returned, or an exception of [int()],
    [login()] or [account_info()], is replaced by it. *)
Theorem shutdown_raises_replaces_outcome environ int_of_str imp hdr req m e :
  Header "" hdr = API_KEY environ →
  imp = Returns m →
  mt5.initialize m = Returns true →
  mt5.shutdown m = Raises e →
  (post_mt5_login environ int_of_str imp hdr req).1 = Raises (Foreign e).
Proof. intros Hkey%key_accepted Himp Hinit Hshut. run. by paths. Qed.

Lemma shutdown_raises_replaces_outcome_witness :
  (post_mt5_login Demo.environ Demo.int_of_str
     (Returns (Faulty.shutdown_raises true (Some Demo.info)))
     (Some "s3cret") Demo.req).1 = Raises (Foreign Faulty.TerminalError).
Proof.
  apply (shutdown_raises_replaces_outcome _ _ _ _ Demo.req
           (Faulty.shutdown_raises true (Some Demo.info))); reflexivity.
Defined.

(** ** What the binding is asked *)

(** X7. Whatever happens, [login()] is only ever called with the
    request's own credentials: the integer that [int()] returned for its
    [login] field, its [password] and its [server]. *)
Theorem login_called_with_request_credentials environ int_of_str imp hdr req n p s :
  ev_login n p s ∈ (post_mt5_login environ int_of_str imp hdr req).2 →
  int_of_str (login req) = Some n ∧ p = password req ∧ s = server req.
Proof.
  paths; rewrite ?elem_of_cons, ?elem_of_nil;
    intuition (try discriminate); simplify_eq; done.
Qed.

Lemma login_called_with_request_credentials_witness :
  Demo.int_of_str (login Demo.req) = Some 12345 ∧
  "pw" = password Demo.req ∧ "Demo" = server Demo.req.
Proof.
  apply (login_called_with_request_credentials Demo.environ Demo.int_of_str
           (Returns (Demo.binding true false None)) (Some "s3cret")).
  change (ev_login 12345 "pw" "Demo"
          ∈ [ev_import; ev_initialize; ev_login 12345 "pw" "Demo"; ev_shutdown]).
  do 2 apply list_elem_of_further. apply list_elem_of_here.
Defined.

(** X8. The interactions of a request follow the order of the handler's
    statements, each at most once: the trace is an initial part of
    import, [initialize()], [login()], [account_info()], possibly followed
    by one [shutdown()], which then comes last and after [initialize()].
    Nothing is retried and nothing is called after the release. *)
Theorem trace_follows_protocol environ int_of_str imp hdr req :
  ∃ n (k : nat),
    (post_mt5_login environ int_of_str imp hdr req).2 = take k (protocol req n) ∨
    ((2 ≤ k)%nat ∧
     (post_mt5_login environ int_of_str imp hdr req).2
     = take k (protocol req n) ++ [ev_shutdown]).
Proof.
  paths;
    solve [ (exists 0 + eexists);
            (exists 0%nat + exists 1%nat + exists 2%nat + exists 3%nat + exists 4%nat);
            ((left; reflexivity) + (right; split; [lia | reflexivity])) ].
Qed.

(** ** What an answer tells *)

(** X9. The handler answers [ok: true] exactly when the key is accepted,
    the binding loads, [initialize()] returns true, [int()] returns an
    integer for the [login] field, [login()] returns true for the
    request's credentials, [account_info()] returns and [shutdown()]
    returns: a success is never reported on any other path. *)
Theorem ok_true_iff_logged_in environ int_of_str imp hdr req :
  (∃ body, (post_mt5_login environ int_of_str imp hdr req).1 = Returns body ∧
           body !! "ok" = Some (OBool true))
  ↔ Header "" hdr = API_KEY environ ∧
    ∃ m n i,
      imp = Returns m ∧
      mt5.initialize m = Returns true ∧
      int_of_str (login req) = Some n ∧
      mt5.login m n (password req) (server req) = Returns true ∧
      mt5.account_info m = Returns i ∧
      mt5.shutdown m = Returns tt.
Proof.
  split.
  - paths; intros (body & [= <-] & Hok); try (by simplify_map_eq);
      (split; [by apply String.eqb_eq |]);
      repeat match goal with u : unit |- _ => destruct u end; by eauto 10.
  - intros (Hkey%key_accepted & m & n & i
            & Himp & Hinit & Hint & Hlogin & Hinfo & Hshut).
    run. eexists. split; [reflexivity|]. by simplify_map_eq.
Qed.

(** X10. The body of the request is not looked at before a session is
    established: when the key is refused, the import fails, or
    [initialize()] does not return true, the outcome and the interactions
    are the same for every body. *)
Theorem request_unread_before_session environ int_of_str imp hdr req req' :
  Header "" hdr ≠ API_KEY environ ∨
  (∃ e, imp = Raises e) ∨
  (∃ m, imp = Returns m ∧ mt5.initialize m ≠ Returns true) →
  post_mt5_login environ int_of_str imp hdr req
  = post_mt5_login environ int_of_str imp hdr req'.
Proof.
  intros Hcase. exec.
  destruct (String.eqb (Header "" hdr) (API_KEY environ)) eqn:Hkey; exec; [|done].
  destruct imp as [m|e]; exec; [|done].
  destruct (mt5.initialize m) as [[]|e] eqn:Hinit; exec; try done.
  exfalso. destruct Hcase as [Hne|[[e [=]]|(m' & [= <-] & Hne)]].
  - by apply Hne, String.eqb_eq.
  - by apply Hne.
Qed.

Lemma request_unread_before_session_witness :
  post_mt5_login Demo.environ Demo.int_of_str (Returns (Demo.binding false true None))
    (Some "s3cret") Demo.req =
  post_mt5_login Demo.environ Demo.int_of_str (Returns (Demo.binding false true None))
    (Some "s3cret") Demo.req_abc.
Proof.
  apply request_unread_before_session. right. right.
  exists (Demo.binding false true None). split; [reflexivity | discriminate].
Defined.

(** X11. The message of an [ok: false] answer tells which step failed:
    ["mt5.initialize failed"] is only sent when [initialize()] returned
    false, ["mt5.login failed"] only when [login()] returned false for the
    request's credentials (the login id being the integer [int()]
    returned), and a message that starts with
    ["MetaTrader5 not available: "] only when the import raised an
    [Exception], whose text is the rest of the message. *)
Theorem message_identifies_failure environ int_of_str imp hdr req body :
  (post_mt5_login environ int_of_str imp hdr req).1 = Returns body →
  (body !! "message" = Some (OStr "mt5.initialize failed") →
     ∃ m, imp = Returns m ∧ mt5.initialize m = Returns false) ∧
  (body !! "message" = Some (OStr "mt5.login failed") →
     ∃ m n, imp = Returns m ∧ mt5.initialize m = Returns true ∧
            int_of_str (login req) = Some n ∧
            mt5.login m n (password req) (server req) = Returns false) ∧
  (∀ cause,
     body !! "message" = Some (OStr ("MetaTrader5 not available: " +:+ cause)) →
     ∃ e, imp = Raises e ∧ err_is_Exception e = true ∧ err_str e = cause).
Proof.
  paths; intros [= <-];
    (split; [intros Hmsg | split; [intros Hmsg | intros cause Hmsg]]);
    simplify_map_eq; eauto 10.
Qed.

Lemma message_identifies_failure_witness :
  (({[ "ok" := OBool false; "message" := OStr "mt5.login failed" ]}
      : gmap string pyobj) !! "message" = Some (OStr "mt5.initialize failed") →
     ∃ m, @Returns pyerr _ (Demo.binding true false None) = Returns m ∧
          mt5.initialize m = Returns false) ∧
  (({[ "ok" := OBool false; "message" := OStr "mt5.login failed" ]}
      : gmap string pyobj) !! "message" = Some (OStr "mt5.login failed") →
     ∃ m n, @Returns pyerr _ (Demo.binding true false None) = Returns m ∧
            mt5.initialize m = Returns true ∧
            Demo.int_of_str (login Demo.req) = Some n ∧
            mt5.login m n (password Demo.req) (server Demo.req) = Returns false) ∧
  (∀ cause,
     ({[ "ok" := OBool false; "message" := OStr "mt5.login failed" ]}
        : gmap string pyobj) !! "message"
     = Some (OStr ("MetaTrader5 not available: " +:+ cause)) →
     ∃ e, @Returns pyerr _ (Demo.binding true false None) = Raises e ∧
          err_is_Exception e = true ∧ err_str e = cause).
Proof.
  apply (message_identifies_failure Demo.environ Demo.int_of_str
           (Returns (Demo.binding true false None)) (Some "s3cret") Demo.req).
  reflexivity.
Defined.

(** ** The session *)

(** X12. [shutdown()] is called at most once, and it is called exactly
    when the key was accepted, the binding loaded and [initialize()]
    returned true: no session is left open once established, and none is
    released that was not established (a refused key, a failed import, an
    [initialize()] that returned false or raised). *)
Theorem shutdown_iff_initialized environ int_of_str imp hdr req :
  (shutdown_calls (post_mt5_login environ int_of_str imp hdr req).2 ≤ 1)%nat ∧
  (shutdown_calls (post_mt5_login environ int_of_str imp hdr req).2 = 1%nat
   ↔ Header "" hdr = API_KEY environ ∧
     ∃ m, imp = Returns m ∧ mt5.initialize m = Returns true).
Proof.
  paths; (split; [cbn; lia|]); (split; [intros Hone | intros (Hkey & m' & Hm & Hinit)]);
    try (cbn in Hone; discriminate Hone);
    try reflexivity;
    try (split; [by apply String.eqb_eq | by eauto]);
    try (apply key_accepted in Hkey; congruence);
    simplify_eq.
Qed.

(** X13. On the successful path, [shutdown()] having returned, the answer
    depends on the account record alone: it is
    [{"ok": True, "account_info": d}] where [d] is the dict of the record,
    and the empty dict both when there is no record and when the record
    has no field. *)
Theorem success_response environ int_of_str imp hdr req m n i :
  Header "" hdr = API_KEY environ →
  imp = Returns m →
  mt5.initialize m = Returns true →
  int_of_str (login req) = Some n →
  mt5.login m n (password req) (server req) = Returns true →
  mt5.account_info m = Returns i →
  mt5.shutdown m = Returns tt →
  (post_mt5_login environ int_of_str imp hdr req).1 =
    Returns {[ "ok" := OBool true;
               "account_info" := ODict (_asdict (default [] i)) ]} ∧
  (i = None ∨ i = Some [] → _asdict (default [] i) = ∅).
Proof.
  intros Hkey%key_accepted Himp Hinit Hint Hlogin Hinfo Hshut. split.
  - run. by destruct i as [[|]|].
  - by intros [->| ->].
Qed.

Lemma success_response_witness :
  (post_mt5_login Demo.environ Demo.int_of_str
     (Returns (Demo.binding true true (Some [])))
     (Some "s3cret") Demo.req).1 =
    Returns {[ "ok" := OBool true;
               "account_info" := ODict (_asdict (default [] (Some []))) ]} ∧
  ((Some [] : option AccountInfo) = None ∨ (Some [] : option AccountInfo) = Some [] →
   _asdict (default [] (Some [])) = ∅).
Proof.
  apply (success_response Demo.environ Demo.int_of_str _ (Some "s3cret") Demo.req
           (Demo.binding true true (Some [])) 12345); reflexivity.
Defined.
